(** * In-app navigation and configuration loading of jitsi-meet

    A shallow embedding of [react/features/app/actions.js]: the functions
    [_loadConfig], [_mergeConfigWithProfile], [loadConfigSettled] and
    [_appNavigateToMandatoryLocation], and the properties of the
    configuration cache, the fetched URL and the dispatched actions.

    Promises are modelled by a state-and-rejection monad over a [World]
    that holds [window.localStorage] and the chronological trace of what
    the code did to the outside (network requests, redux dispatches).

    What the file imports from other features ([loadConfig], [getProfile],
    [setConfigFromURLParams], the store behind [dispatch]) and the globals
    it reads ([APP], [window.config], [window.localStorage]) are the fields
    of an environment [Env]; the built-ins [toLowerCase], [JSON.stringify]
    and [JSON.parse] are variables of the section that holds the code, so
    that every theorem holds for every platform.  A built-in or a
    collaborator is fallible in the model where the source handles its
    failure or lets it through to its caller: the fetch may reject, with
    any value for a reason, reading [window.localStorage] may throw,
    [JSON.stringify], [setItem] and [JSON.parse] may throw, and
    [new URL(...)] throws on a text that is no valid URL. *)

From Stdlib Require Import ZArith Ascii String.
From stdpp Require Import gmap strings list fin_maps pretty.

Local Set Warnings "-register-all".

(** ** JavaScript values *)

(** The structural content of a JavaScript value.  Numbers are restricted
    to integers; a string is the sequence of its code units, restricted to
    the code units below 256; an array is an object whose keys are its
    indices. *)
Inductive Value : Type :=
  | VUndefined
  | VNull
  | VBool (b : bool)
  | VNum (n : Z)
  | VStr (s : string)
  | VObj (props : gmap string Value).

(** A value as held by a variable: its content and, for an object, the
    identity that [===] compares. *)
Record Ref : Type := mkRef { addr : nat; target : Value }.

(** ToBoolean. *)
Definition truthy (v : Value) : bool :=
  match v with
  | VUndefined | VNull => false
  | VBool b => b
  | VNum n => negb (n =? 0)%Z
  | VStr s => negb (String.eqb s "")
  | VObj _ => true
  end.

(** [a === b]: objects by identity, primitives by value. *)
Definition strict_equal (a b : Ref) : bool :=
  match target a, target b with
  | VObj _, VObj _ => Nat.eqb (addr a) (addr b)
  | VUndefined, VUndefined => true
  | VNull, VNull => true
  | VBool x, VBool y => Bool.eqb x y
  | VNum x, VNum y => (x =? y)%Z
  | VStr x, VStr y => String.eqb x y
  | _, _ => false
  end.

(** [typeof v === 'undefined'] *)
Definition typeof_undefined (v : Value) : bool :=
  match v with VUndefined => true | _ => false end.

(** A string-or-undefined property, as the fields of a location are. *)
Definition str_truthy (o : option string) : bool :=
  match o with
  | Some s => negb (String.eqb s "")
  | None => false
  end.

(** [o || d] on a string-or-undefined. *)
Definition str_or (o : option string) (d : string) : string :=
  match o with
  | Some s => if String.eqb s "" then d else s
  | None => d
  end.

(** The own enumerable properties that an object spread [{...v}] copies. *)
Definition chars_of (s : string) : list (string * Value) :=
  imap (fun i c => (pretty i, VStr (String c EmptyString))) (list_ascii_of_string s).

Definition own_props (v : Value) : gmap string Value :=
  match v with
  | VObj props => props
  | VStr s => list_to_map (chars_of s)
  | _ => ∅
  end.

(** ** Locations, errors, actions *)

(** The location URI, as [parseURIString] produces it and the navigation
    normalises it: [protocol] and [host] are set, the other two may be
    [undefined]. *)
Record Location : Type := mkLocation {
  protocol : string;
  host : string;
  contextRoot : option string;
  room : option string
}.

(** A location URI as [parseURIString] returns it, before the navigation has
    filled it in: every property may be [undefined].  [Location] is the view
    of it that [_appNavigateToMandatoryLocation] and [_loadConfig] take. *)
Record URI : Type := mkURI {
  uri_protocol : option string;
  uri_host : option string;
  uri_hostname : option string;
  uri_port : option string;
  uri_contextRoot : option string;
  uri_room : option string
}.

(** [parseURIString] of [base/util], and the default URL of the app,
    [getState()['features/app'].app._getDefaultURL()]. *)
Record URIs : Type := mkURIs {
  parseURIString : option string -> option URI;
  _getDefaultURL : string
}.

(** A string-or-undefined in a template literal. *)
Definition template (o : option string) : string := default "undefined" o.

(** The redux actions this file dispatches, by their action creators. *)
Inductive Action : Type :=
  | configWillLoad (locationURL : Location)
  | setLocationURL (locationURL : Location)
  | loadConfigError (error : Value) (locationURL : Location)
  | setConfig (config : Value)
  | setRoom (room : option string).

(** What the code does to the outside, in the order it does it. *)
Inductive Event : Type :=
  | Requested (url : string)
  | Dispatched (a : Action).

(** ** The world and the promise monad *)

(** [localStorage = None]: reading [window.localStorage] throws. *)
Record World : Type := mkWorld {
  localStorage : option (gmap string string);
  trace : list Event
}.

Definition emit (e : Event) (w : World) : World :=
  {| localStorage := localStorage w; trace := trace w ++ [e] |}.

Definition with_storage (m : gmap string string) (w : World) : World :=
  {| localStorage := Some m; trace := trace w |}.

(** How a promise settles.  The reason of a rejection, like what a [throw]
    throws, is any value: [if (error)] tests whether it is truthy. *)
Inductive Settled (A : Type) : Type :=
  | Fulfilled (a : A)
  | Rejected (e : Value).
Arguments Fulfilled {A} a.
Arguments Rejected {A} e.

Definition Promise (A : Type) : Type := World -> Settled A * World.

Definition resolve {A} (a : A) : Promise A := fun w => (Fulfilled a, w).

Definition reject {A} (e : Value) : Promise A := fun w => (Rejected e, w).

(** [p.then(onFulfilled, onRejected)] *)
Definition then2 {A B} (p : Promise A)
    (onFulfilled : A -> Promise B) (onRejected : Value -> Promise B) : Promise B :=
  fun w =>
    match p w with
    | (Fulfilled a, w') => onFulfilled a w'
    | (Rejected e, w') => onRejected e w'
    end.

(** [p.then(onFulfilled)] *)
Definition then1 {A B} (p : Promise A) (onFulfilled : A -> Promise B) : Promise B :=
  then2 p onFulfilled reject.

Notation "'await' x ':=' p 'in' q" := (then1 p (fun x => q))
  (at level 10, x name, p at level 100, q at level 200).

(** [dispatch(action)]; the store settles the dispatch of every action of
    this file successfully. *)
Definition dispatch (a : Action) : Promise unit :=
  fun w => (Fulfilled tt, emit (Dispatched a) w).

(** The completion of a built-in that may throw. *)
Inductive Completion (A : Type) : Type :=
  | Returns (a : A)
  | Throws.
Arguments Returns {A} a.
Arguments Throws {A}.

(** ** The environment of a navigation *)

(** The globals and the collaborators imported from other features. *)
Record Env : Type := mkEnv {
  (** [typeof APP !== 'undefined'] *)
  APP_defined : bool;
  (** [window.config] *)
  window_config : Ref;
  (** [loadConfig(url)] of [base/lib-jitsi-meet]: how the fetch settles. *)
  loadConfig : string -> Settled Ref;
  (** whether [localStorage.setItem(key, value)] returns (or throws, as it
      does when the quota is exceeded) *)
  setItem_accepts : string -> string -> bool;
  (** what [setConfigFromURLParams] makes of the properties of the config
      object it updates in place *)
  setConfigFromURLParams : Location -> gmap string Value -> gmap string Value;
  (** [getProfile(getState())] *)
  getProfile : Value;
  (** [new URL(newLocation.toString())]: [None] when it returns the URL,
      which the model identifies with the location it is built from;
      [Some e] when the text of the location is no valid URL and the
      constructor throws [e], a [TypeError] *)
  URL_throws : Location -> option Value
}.

(** ** A concrete platform for running the model *)

Definition ascii_toLowerCase (c : ascii) : ascii :=
  let n := nat_of_ascii c in
  if (65 <=? n)%nat && (n <=? 90)%nat then ascii_of_nat (n + 32) else c.

(** [String.prototype.toLowerCase] on ASCII text. *)
Fixpoint string_toLowerCase (s : string) : string :=
  match s with
  | EmptyString => EmptyString
  | String c s' => String (ascii_toLowerCase c) (string_toLowerCase s')
  end.

(** [JSON.stringify] and [JSON.parse] on the literals and on objects
    without properties; other texts are a [SyntaxError]. *)
Definition literal_stringify (v : Value) : Completion (option string) :=
  match v with
  | VUndefined => Returns None
  | VNull => Returns (Some "null")
  | VBool true => Returns (Some "true")
  | VBool false => Returns (Some "false")
  | VNum 0 => Returns (Some "0")
  | VObj props => if decide (props = ∅) then Returns (Some "{}") else Throws
  | _ => Throws
  end.

Definition literal_parse (s : string) : Completion Value :=
  if String.eqb s "null" then Returns VNull
  else if String.eqb s "true" then Returns (VBool true)
  else if String.eqb s "false" then Returns (VBool false)
  else if String.eqb s "0" then Returns (VNum 0)
  else if String.eqb s "{}" then Returns (VObj ∅)
  else Throws.

(** ** Locations, documents and environments to run the model on *)

Definition example_location : Location :=
  {| protocol := "https:"; host := "meet.example.com";
     contextRoot := Some "/"; room := Some "test" |}.

(** The same deployment, no room: the WelcomePage. *)
Definition welcome_location : Location :=
  {| protocol := "https:"; host := "meet.example.com";
     contextRoot := Some "/"; room := None |}.

(** A location with the scheme of the mobile app and no context root. *)
Definition app_location : Location :=
  {| protocol := "org.jitsi.meet:"; host := "meet.example.com";
     contextRoot := None; room := Some "TeamSync" |}.

Definition fetch_error : Value :=
  VObj {[ "message" := VStr "Network request failed" ]}.

(** What [new URL] throws on a text that is no valid URL. *)
Definition type_error : Value :=
  VObj {[ "name" := VStr "TypeError"; "message" := VStr "Invalid URL" ]}.

(** A room at a host that no URL can have, and its WelcomePage. *)
Definition invalid_location : Location :=
  {| protocol := "https:"; host := "meet example";
     contextRoot := Some "/"; room := Some "test" |}.

Definition invalid_welcome_location : Location :=
  {| protocol := "https:"; host := "meet example";
     contextRoot := Some "/"; room := None |}.

(** [new URL] on the locations of the examples: the host with a space is
    refused. *)
Definition example_URL_throws (location : Location) : option Value :=
  if String.eqb (host location) "meet example" then Some type_error else None.

(** A fetched document, an object of its own. *)
Definition fetched_document : Ref := {| addr := 1; target := VObj ∅ |}.

Definition example_profile : Value :=
  VObj {[ "displayName" := VStr "Ann" ]}.

(** The mobile app: no [APP], no [window.config]. *)
Definition native_env (fetch : Settled Ref) : Env :=
  {| APP_defined := false;
     window_config := {| addr := 0; target := VUndefined |};
     loadConfig := fun _ => fetch;
     setItem_accepts := fun _ _ => true;
     setConfigFromURLParams := fun _ props => props;
     getProfile := example_profile;
     URL_throws := example_URL_throws |}.

(** The document that [config.js] has put in [window.config] in the Web
    app. *)
Definition web_document : Ref :=
  {| addr := 2; target := VObj {[ "disableAudioLevels" := VBool true ]} |}.

(** The Web app: [loadConfig] resolves with [window.config] itself. *)
Definition web_env : Env :=
  {| APP_defined := true;
     window_config := web_document;
     loadConfig := fun _ => Fulfilled web_document;
     setItem_accepts := fun _ _ => true;
     setConfigFromURLParams := fun _ props => props;
     getProfile := example_profile;
     URL_throws := example_URL_throws |}.

(** The mobile app with a deployment that serves the document, and with
    one that is unreachable. *)
Definition serving_env : Env := native_env (Fulfilled fetched_document).

Definition offline_env : Env := native_env (Rejected fetch_error).

(** The mobile app with a fetch that rejects with the empty string for a
    reason. *)
Definition empty_reason_env : Env := native_env (Rejected (VStr "")).

(** The mobile app with a store that is full. *)
Definition full_store_env : Env :=
  {| APP_defined := false;
     window_config := {| addr := 0; target := VUndefined |};
     loadConfig := fun _ => Fulfilled fetched_document;
     setItem_accepts := fun _ _ => false;
     setConfigFromURLParams := fun _ props => props;
     getProfile := example_profile;
     URL_throws := example_URL_throws |}.

(** The mobile app with a deployment that serves [fetch] for the room
    [test] and is unreachable for every other room. *)
Definition sharded_env (fetch : Ref) : Env :=
  {| APP_defined := false;
     window_config := {| addr := 0; target := VUndefined |};
     loadConfig := fun url =>
       if String.eqb url "https://meet.example.com/config.js?room=test"
       then Fulfilled fetch
       else Rejected fetch_error;
     setItem_accepts := fun _ _ => true;
     setConfigFromURLParams := fun _ props => props;
     getProfile := example_profile;
     URL_throws := example_URL_throws |}.

(** The mobile app with URL parameters that set [startWithAudioMuted] and
    [displayName]. *)
Definition url_params_env : Env :=
  {| APP_defined := false;
     window_config := {| addr := 0; target := VUndefined |};
     loadConfig := fun _ => Fulfilled fetched_document;
     setItem_accepts := fun _ _ => true;
     setConfigFromURLParams := fun _ props =>
       <["startWithAudioMuted" := VBool true]>
         (<["displayName" := VStr "Guest"]> props);
     getProfile := example_profile;
     URL_throws := example_URL_throws |}.

(** Another room of the deployment of [example_location]. *)
Definition other_room_location : Location :=
  {| protocol := "https:"; host := "meet.example.com";
     contextRoot := Some "/"; room := Some "standup" |}.

(** A fetched value that [JSON.stringify] has no text for. *)
Definition undefined_document : Ref := {| addr := 0; target := VUndefined |}.

(** The parsed default URL of the app, a bare room name, and a full URL. *)
Definition default_uri : URI :=
  {| uri_protocol := Some "https:"; uri_host := Some "meet.example.com";
     uri_hostname := Some "meet.example.com"; uri_port := None;
     uri_contextRoot := Some "/"; uri_room := None |}.

Definition room_uri : URI :=
  {| uri_protocol := Some "org.jitsi.meet:"; uri_host := None;
     uri_hostname := None; uri_port := None;
     uri_contextRoot := None; uri_room := Some "Standup" |}.

Definition full_uri : URI :=
  {| uri_protocol := None; uri_host := Some "conference.example.org:8443";
     uri_hostname := Some "conference.example.org"; uri_port := Some "8443";
     uri_contextRoot := Some "/meet/"; uri_room := Some "Standup" |}.

(** [parseURIString] on the URIs of the examples. *)
Definition example_parseURIString (uri : option string) : option URI :=
  match uri with
  | Some uri =>
      if String.eqb uri "https://meet.example.com" then Some default_uri
      else if String.eqb uri "org.jitsi.meet:Standup" then Some room_uri
      else if String.eqb uri "//conference.example.org:8443/meet/Standup"
      then Some full_uri
      else None
  | None => None
  end.

Definition example_uris : URIs :=
  {| parseURIString := example_parseURIString;
     _getDefaultURL := "https://meet.example.com" |}.

Definition world_with (storage : gmap string string) : World :=
  {| localStorage := Some storage; trace := [] |}.

(** Stores whose entry for [example_location] is a document, the empty
    text, and a truncated document. *)
Definition cached_storage : gmap string string :=
  {[ "config.js/https://meet.example.com/" := "{}" ]}.

Definition empty_entry_storage : gmap string string :=
  {[ "config.js/https://meet.example.com/" := "" ]}.

Definition corrupt_storage : gmap string string :=
  {[ "config.js/https://meet.example.com/" := "{displayName" ]}.

(** ** The functions of [actions.js] *)

Section Actions.

(** The built-ins of the platform the code runs on. *)
Variable toLowerCase : string -> string.
(** [JSON.stringify(v)]: a text, [undefined] ([None]), or a [TypeError]. *)
Variable JSON_stringify : Value -> Completion (option string).
Variable JSON_parse : string -> Completion Value.

Variable env : Env.

(** [JSON.parse] throws a [SyntaxError] on the empty text. *)
Hypothesis JSON_parse_empty : JSON_parse "" = Throws.

(** The local constants of [_loadConfig]. *)

Definition fetch_protocol (location : Location) : string :=
  let protocol := toLowerCase (protocol location) in
  if negb (String.eqb protocol "http:") && negb (String.eqb protocol "https:")
  then "https:"
  else protocol.

Definition baseURL (location : Location) : string :=
  fetch_protocol location +:+ "//" +:+ host location
    +:+ str_or (contextRoot location) "/".

Definition url (location : Location) : string :=
  let url := baseURL location +:+ "config.js" in
  match room location with
  | Some room =>
      if negb (String.eqb room "") then url +:+ "?room=" +:+ toLowerCase room
      else url
  | None => url
  end.

Definition key (location : Location) : string :=
  "config.js/" +:+ baseURL location.

(** The call [loadConfig(url)]: a request, settled by the deployment. *)
Definition loadConfig_call (url : string) : Promise Ref :=
  fun w => (loadConfig env url, emit (Requested url) w).

(** The [try] block of [onFulfilled]: every throw inside is swallowed. *)
Definition store_config (key : string) (config : Ref) (w : World) : World :=
  if typeof_undefined (target (window_config env))
     || negb (strict_equal (window_config env) config)
  then
    match localStorage w with
    | None => w
    | Some storage =>
        match JSON_stringify (target config) with
        | Throws => w
        | Returns text =>
            let value := default "undefined" text in
            if setItem_accepts env key value
            then with_storage (<[key := value]> storage) w
            else w
        end
    end
  else w.

(** [onRejected]: the last configuration fetched for the deployment, or
    the error of the fetch. *)
Definition cached_config (key : string) (error : Value) : Promise Value :=
  fun w =>
    match localStorage w with
    | None => (Rejected error, w)
    | Some storage =>
        match storage !! key with
        | Some config =>
            if negb (String.eqb config "")
            then
              match JSON_parse config with
              | Returns parsed => (Fulfilled parsed, w)
              | Throws => (Rejected error, with_storage (delete key storage) w)
              end
            else (Rejected error, w)
        | None => (Rejected error, w)
        end
    end.

Definition _loadConfig (location : Location) : Promise Value :=
  if negb (str_truthy (room location)) && negb (APP_defined env)
  then resolve VUndefined
  else
    then2 (loadConfig_call (url location))
      (fun config w => (Fulfilled (target config), store_config (key location) config w))
      (fun error => cached_config (key location) error).

Definition _mergeConfigWithProfile (config profile : Value) : Value :=
  if negb (truthy config) then VUndefined
  else VObj (own_props profile ∪ own_props config).

(** The effect of [setConfigFromURLParams(config, ...)] on [config]. *)
Definition overridden (config : Value) (newLocation : Location) : Value :=
  match config with
  | VObj props => VObj (setConfigFromURLParams env newLocation props)
  | _ => config
  end.

(** [loadConfigSettled(error, config)], run inside a [then] callback: what
    [new URL] throws rejects the promise of the callback. *)
Definition loadConfigSettled (newLocation : Location)
    (error config : Value) : Promise unit :=
  let config :=
    if truthy config && negb (truthy error)
    then overridden config newLocation
    else config in
  match URL_throws env newLocation with
  | Some thrown => reject thrown
  | None =>
      await _ := dispatch (setLocationURL newLocation) in
      if truthy error
      then
        await _ := dispatch (loadConfigError error newLocation) in
        reject error
      else
        let profile := getProfile env in
        dispatch (setConfig (_mergeConfigWithProfile config profile))
  end.

Definition _appNavigateToMandatoryLocation (newLocation : Location) : Promise unit :=
  let room := room newLocation in
  await _ := dispatch (configWillLoad newLocation) in
  await _ :=
    then2 (_loadConfig newLocation)
      (fun config => loadConfigSettled newLocation VUndefined config)
      (fun error => loadConfigSettled newLocation error VUndefined) in
  dispatch (setRoom room).

(** What the navigation to a URI reads besides [env]. *)
Variable uris : URIs.

Definition defaultLocation : option URI :=
  parseURIString uris (Some (_getDefaultURL uris)).

(** Lines 137-153 of [_appNavigateToOptionalLocation]: the location with
    the host of the default location where it has none.  Reading a
    property of [undefined] throws a [TypeError]. *)
Definition with_default_host (location : option URI) : Completion URI :=
  match location with
  | Some location =>
      if negb (str_truthy (uri_host location))
      then
        match defaultLocation with
        | Some defaultLocation =>
            Returns
              {| uri_protocol := uri_protocol defaultLocation;
                 uri_host := uri_host defaultLocation;
                 uri_hostname := uri_hostname defaultLocation;
                 uri_port := uri_port defaultLocation;
                 uri_contextRoot := uri_contextRoot location;
                 uri_room := uri_room location |}
        | None => Throws
        end
      else Returns location
  | None =>
      match defaultLocation with
      | Some defaultLocation => Returns defaultLocation
      | None => Throws
      end
  end.

(** The location after [location.protocol || (location.protocol = 'https:')],
    as [_appNavigateToMandatoryLocation] reads it; [_loadConfig] reads the
    host in a template literal. *)
Definition as_location (location : URI) : Location :=
  {| protocol := str_or (uri_protocol location) "https:";
     host := template (uri_host location);
     contextRoot := uri_contextRoot location;
     room := uri_room location |}.

Definition _appNavigateToOptionalLocation (location : option URI)
    : Completion (Promise unit) :=
  match with_default_host location with
  | Returns location => Returns (_appNavigateToMandatoryLocation (as_location location))
  | Throws => Throws
  end.

Definition appNavigate (uri : option string) : Completion (Promise unit) :=
  _appNavigateToOptionalLocation (parseURIString uris uri).

(** A fetch is performed unless there is no room outside the Web app. *)
Definition fetches (location : Location) : bool :=
  str_truthy (room location) || APP_defined env.

(** A string-or-undefined that is [undefined] or empty: what [||] and
    [&&] treat as absent. *)
Definition absent (o : option string) : Prop := o = None \/ o = Some "".

(** The entry of the cache under [key], read back and deserialized. *)
Definition read_back (key : string) (w : World) : option (Completion Value) :=
  storage ← localStorage w;
  text ← storage !! key;
  Some (JSON_parse text).

(** *** How [_loadConfig] runs *)

Lemma append_assoc (a b c : string) : (a +:+ b) +:+ c = a +:+ b +:+ c.
Proof.
  induction a as [|x a IH]; [reflexivity|].
  change (String x ((a +:+ b) +:+ c) = String x (a +:+ b +:+ c)).
  now rewrite IH.
Qed.

Lemma str_truthy_false (o : option string) : str_truthy o = false <-> absent o.
Proof.
  unfold absent. destruct o as [s|]; simpl.
  - rewrite negb_false_iff, String.eqb_eq. split.
    + intros ->. now right.
    + intros [H|H]; congruence.
  - split; [now left | reflexivity].
Qed.

Lemma loadConfig_skipped location w :
  fetches location = false ->
  _loadConfig location w = (Fulfilled VUndefined, w).
Proof.
  unfold fetches, _loadConfig. intros H.
  apply orb_false_iff in H as [-> ->]. reflexivity.
Qed.

Lemma loadConfig_fetched location w :
  fetches location = true ->
  _loadConfig location w =
    let w1 := emit (Requested (url location)) w in
    match loadConfig env (url location) with
    | Fulfilled config =>
        (Fulfilled (target config), store_config (key location) config w1)
    | Rejected error => cached_config (key location) error w1
    end.
Proof.
  unfold fetches, _loadConfig. intros H.
  destruct (str_truthy (room location)), (APP_defined env);
    try discriminate; reflexivity.
Qed.

Lemma store_config_trace k config w : trace (store_config k config w) = trace w.
Proof.
  unfold store_config.
  repeat (case_match; try reflexivity).
Qed.

Lemma cached_config_trace k error w : trace (cached_config k error w).2 = trace w.
Proof.
  unfold cached_config.
  repeat (case_match; try reflexivity).
Qed.

Lemma loadConfig_trace location w :
  trace (_loadConfig location w).2 =
    trace w ++ (if fetches location then [Requested (url location)] else []).
Proof.
  destruct (fetches location) eqn:F.
  - rewrite loadConfig_fetched by assumption. cbv zeta.
    destruct (loadConfig env (url location)); simpl.
    + now rewrite store_config_trace.
    + now rewrite cached_config_trace.
  - rewrite loadConfig_skipped by assumption. simpl. now rewrite app_nil_r.
Qed.

(** [_loadConfig] rejects with the error of the fetch and no other. *)
Lemma loadConfig_rejected location w error w1 :
  _loadConfig location w = (Rejected error, w1) ->
  fetches location = true /\ loadConfig env (url location) = Rejected error.
Proof.
  destruct (fetches location) eqn:F.
  - rewrite loadConfig_fetched by assumption. cbv zeta.
    destruct (loadConfig env (url location)) as [config|e]; [discriminate|].
    unfold cached_config. intros H. split; [reflexivity|].
    repeat case_match; congruence.
  - rewrite loadConfig_skipped by assumption. discriminate.
Qed.

Lemma store_config_storage k config w storage storage' :
  localStorage w = Some storage ->
  localStorage (store_config k config w) = Some storage' ->
  forall k', k' <> k -> storage' !! k' = storage !! k'.
Proof.
  unfold store_config. intros Hw Hw' k' Hk.
  repeat case_match; simplify_eq/=; try congruence.
  now rewrite lookup_insert_ne.
Qed.

Lemma cached_config_storage k error w storage storage' :
  localStorage w = Some storage ->
  localStorage (cached_config k error w).2 = Some storage' ->
  forall k', k' <> k -> storage' !! k' = storage !! k'.
Proof.
  unfold cached_config. intros Hw Hw' k' Hk.
  repeat case_match; simplify_eq/=; try congruence.
  now rewrite lookup_delete_ne.
Qed.

Lemma navigate_run location w :
  _appNavigateToMandatoryLocation location w =
    match _loadConfig location (emit (Dispatched (configWillLoad location)) w) with
    | (settled, w1) =>
        match URL_throws env location with
        | Some thrown => (Rejected thrown, w1)
        | None =>
            let committed config :=
              (Fulfilled tt,
               emit (Dispatched (setRoom (room location)))
                 (emit (Dispatched (setConfig config))
                    (emit (Dispatched (setLocationURL location)) w1))) in
            match settled with
            | Fulfilled config =>
                let config :=
                  if truthy config then overridden config location else config in
                committed (_mergeConfigWithProfile config (getProfile env))
            | Rejected error =>
                if truthy error
                then
                  (Rejected error,
                   emit (Dispatched (loadConfigError error location))
                     (emit (Dispatched (setLocationURL location)) w1))
                else committed VUndefined
            end
        end
    end.
Proof.
  unfold _appNavigateToMandatoryLocation, loadConfigSettled, then1, then2, dispatch, reject.
  destruct (_loadConfig location _) as [[config|error] w1]; simpl.
  - destruct (URL_throws env location); [reflexivity|].
    simpl. now rewrite andb_true_r.
  - destruct (URL_throws env location); [reflexivity|].
    simpl. now destruct (truthy error).
Qed.

Lemma emit_emit e1 e2 w :
  emit e2 (emit e1 w) =
    {| localStorage := localStorage w; trace := trace w ++ [e1; e2] |}.
Proof. unfold emit; simpl. now rewrite <- app_assoc. Qed.

Lemma emit_emit_emit e1 e2 e3 w :
  emit e3 (emit e2 (emit e1 w)) =
    {| localStorage := localStorage w; trace := trace w ++ [e1; e2; e3] |}.
Proof. unfold emit; simpl. now rewrite <- !app_assoc. Qed.

Lemma merge_truthy config profile :
  truthy config = true ->
  _mergeConfigWithProfile config profile = VObj (own_props profile ∪ own_props config).
Proof. unfold _mergeConfigWithProfile. now intros ->. Qed.

Lemma overridden_truthy config location : truthy (overridden config location) = truthy config.
Proof. now destruct config. Qed.

(** *** The fetched URL and the cache key *)

(** C6: the URL that [_loadConfig] requests is the lowercased protocol
    (replaced by [https:] when it is neither [http:] nor [https:]), [//],
    the host, the context root ([/] when absent), [config.js] and, exactly
    when a room is set, [?room=] with the lowercased room. *)
Theorem fetched_url_format location w u :
  Requested u ∈ trace (_loadConfig location w).2 ->
  Requested u ∉ trace w ->
  exists p cr q,
    u = p +:+ "//" +:+ host location +:+ cr +:+ "config.js" +:+ q
    /\ (toLowerCase (protocol location) = "http:" -> p = "http:")
    /\ (toLowerCase (protocol location) = "https:" -> p = "https:")
    /\ (toLowerCase (protocol location) <> "http:" ->
        toLowerCase (protocol location) <> "https:" -> p = "https:")
    /\ (absent (contextRoot location) -> cr = "/")
    /\ (forall c, contextRoot location = Some c -> c <> "" -> cr = c)
    /\ (absent (room location) -> q = "")
    /\ (forall r, room location = Some r -> r <> "" ->
          q = "?room=" +:+ toLowerCase r).
Proof.
  rewrite loadConfig_trace. intros Hin Hnot.
  apply elem_of_app in Hin as [Hin|Hin]; [contradiction|].
  destruct (fetches location); [|now apply elem_of_nil in Hin].
  apply list_elem_of_singleton in Hin. injection Hin as ->.
  exists (fetch_protocol location), (str_or (contextRoot location) "/"),
    (if str_truthy (room location)
     then "?room=" +:+ toLowerCase (default "" (room location)) else "").
  split; [|repeat split].
  - unfold url, baseURL.
    destruct (room location) as [r|]; simpl.
    + destruct (String.eqb r ""); simpl; rewrite !append_assoc; reflexivity.
    + rewrite !append_assoc. reflexivity.
  - unfold fetch_protocol. now intros ->.
  - unfold fetch_protocol. now intros ->.
  - unfold fetch_protocol. intros H1 H2.
    apply String.eqb_neq in H1, H2. now rewrite H1, H2.
  - intros [->| ->]; reflexivity.
  - intros c -> Hc. simpl. apply String.eqb_neq in Hc. now rewrite Hc.
  - intros [->| ->]; reflexivity.
  - intros r -> Hr. simpl. apply String.eqb_neq in Hr. now rewrite Hr.
Qed.

(** C1 (amended): the key of the cache is ["config.js/"] followed by the
    base URL of the fetch (lowercased protocol, [https:] unless [http:] or
    [https:]; host; context root or [/]); it does not depend on the room;
    [_loadConfig] changes the store under no other key, and what it
    settles with depends on the store through the entry of that key only. *)
Theorem cache_key_format location :
  (exists p cr,
      key location = "config.js/" +:+ p +:+ "//" +:+ host location +:+ cr
      /\ (toLowerCase (protocol location) = "http:" -> p = "http:")
      /\ (toLowerCase (protocol location) = "https:" -> p = "https:")
      /\ (toLowerCase (protocol location) <> "http:" ->
          toLowerCase (protocol location) <> "https:" -> p = "https:")
      /\ (absent (contextRoot location) -> cr = "/")
      /\ (forall c, contextRoot location = Some c -> c <> "" -> cr = c))
  /\ (forall r,
        key {| protocol := protocol location; host := host location;
               contextRoot := contextRoot location; room := r |}
        = key location)
  /\ (forall w storage storage',
        localStorage w = Some storage ->
        localStorage (_loadConfig location w).2 = Some storage' ->
        forall k, k <> key location -> storage' !! k = storage !! k)
  /\ (forall storage1 storage2 events,
        storage1 !! key location = storage2 !! key location ->
        (_loadConfig location {| localStorage := Some storage1; trace := events |}).1
        = (_loadConfig location {| localStorage := Some storage2; trace := events |}).1).
Proof.
  split; [|split; [|split]].
  - exists (fetch_protocol location), (str_or (contextRoot location) "/").
    split; [reflexivity|]. unfold fetch_protocol. repeat split.
    + now intros ->.
    + now intros ->.
    + intros H1 H2. apply String.eqb_neq in H1, H2. now rewrite H1, H2.
    + intros [->| ->]; reflexivity.
    + intros c -> Hc. simpl. apply String.eqb_neq in Hc. now rewrite Hc.
  - reflexivity.
  - intros w storage storage' Hw Hw' k Hk.
    destruct (fetches location) eqn:F.
    + rewrite loadConfig_fetched in Hw' by assumption. cbv zeta in Hw'.
      destruct (loadConfig env (url location)) as [config|error].
      * simpl in Hw'.
        now apply (store_config_storage (key location) config
                     (emit (Requested (url location)) w) storage storage').
      * now apply (cached_config_storage (key location) error
                     (emit (Requested (url location)) w) storage storage').
    + rewrite loadConfig_skipped in Hw' by assumption. simpl in Hw'. congruence.
  - intros storage1 storage2 events Hk.
    destruct (fetches location) eqn:F.
    + rewrite !loadConfig_fetched by assumption. cbv zeta.
      destruct (loadConfig env (url location)) as [config|error]; [reflexivity|].
      unfold cached_config; simpl. rewrite Hk.
      repeat case_match; reflexivity.
    + now rewrite !loadConfig_skipped by assumption.
Qed.

(** *** The cache *)

(** C3: when the fetch fails with an error and the cache holds, under the
    key of the deployment, an entry that deserializes, [_loadConfig]
    resolves with the deserialized entry: the error of the fetch does not
    reach its caller.  The navigation to a location whose text is a valid
    URL then fulfils. *)
Theorem cache_fallback location w error storage text cached :
  fetches location = true ->
  loadConfig env (url location) = Rejected error ->
  localStorage w = Some storage ->
  storage !! key location = Some text ->
  JSON_parse text = Returns cached ->
  _loadConfig location w = (Fulfilled cached, emit (Requested (url location)) w)
  /\ (URL_throws env location = None ->
      (_appNavigateToMandatoryLocation location w).1 = Fulfilled tt).
Proof.
  intros F Hfetch Hw Hentry Hparse.
  assert (Hload : forall w', localStorage w' = Some storage ->
    _loadConfig location w' = (Fulfilled cached, emit (Requested (url location)) w')).
  { intros w' Hw'. rewrite loadConfig_fetched by assumption. cbv zeta.
    rewrite Hfetch. unfold cached_config. simpl. rewrite Hw', Hentry.
    destruct (String.eqb text "") eqn:E.
    - apply String.eqb_eq in E. subst text. congruence.
    - simpl. now rewrite Hparse. }
  split; [now apply Hload|].
  intros Hurl. rewrite navigate_run, Hload by exact Hw. now rewrite Hurl.
Qed.

(** C4 (amended): when the fetch fails with an error and the cache holds,
    under the key of the deployment, a non-empty entry that fails to
    deserialize, [_loadConfig] removes the entry and rejects with the
    error of the fetch. *)
Theorem corrupt_entry_removed location w error storage text :
  fetches location = true ->
  loadConfig env (url location) = Rejected error ->
  localStorage w = Some storage ->
  storage !! key location = Some text ->
  text <> "" ->
  JSON_parse text = Throws ->
  _loadConfig location w =
    (Rejected error,
     with_storage (delete (key location) storage)
       (emit (Requested (url location)) w))
  /\ (delete (key location) storage) !! key location = None.
Proof.
  intros F Hfetch Hw Hentry Htext Hparse.
  split; [|apply lookup_delete_eq].
  rewrite loadConfig_fetched by assumption. cbv zeta.
  rewrite Hfetch. unfold cached_config. simpl. rewrite Hw, Hentry.
  apply String.eqb_neq in Htext. rewrite Htext. simpl. now rewrite Hparse.
Qed.

(** C9 (amended): when the fetch succeeds with a document [D] that is not
    the object [window.config], and the store takes the write (the store
    is accessible, [JSON.stringify(D)] is a text, [setItem] does not
    throw), the entry under the key of the deployment is that text; read
    back and deserialized it is [D] again whenever the text of [D] parses
    to [D]. *)
Theorem cache_round_trip location w config storage text :
  fetches location = true ->
  loadConfig env (url location) = Fulfilled config ->
  typeof_undefined (target (window_config env)) = true
    \/ strict_equal (window_config env) config = false ->
  localStorage w = Some storage ->
  JSON_stringify (target config) = Returns (Some text) ->
  setItem_accepts env (key location) text = true ->
  JSON_parse text = Returns (target config) ->
  _loadConfig location w =
    (Fulfilled (target config),
     with_storage (<[key location := text]> storage)
       (emit (Requested (url location)) w))
  /\ read_back (key location) (_loadConfig location w).2
       = Some (Returns (target config)).
Proof.
  intros F Hfetch Hneq Hw Hjson Hset Hparse.
  assert (Hload : _loadConfig location w =
    (Fulfilled (target config),
     with_storage (<[key location := text]> storage)
       (emit (Requested (url location)) w))).
  { rewrite loadConfig_fetched by assumption. cbv zeta.
    rewrite Hfetch. unfold store_config.
    assert (G : typeof_undefined (target (window_config env))
                || negb (strict_equal (window_config env) config) = true).
    { destruct Hneq as [-> | ->]; [reflexivity | apply orb_true_r]. }
    rewrite G. simpl. rewrite Hw, Hjson. simpl. now rewrite Hset. }
  split; [exact Hload|].
  rewrite Hload. unfold read_back. simpl.
  now rewrite lookup_insert_eq; simpl; rewrite Hparse.
Qed.

(** *** The merge with the profile *)

(** C8: in the merge of a config object with a profile object, a key of
    the profile alone has the profile's value, a key of both has the
    profile's value, and a key of the config alone keeps its value. *)
Theorem merge_law (config profile : gmap string Value) (k : string) :
  exists merged,
    _mergeConfigWithProfile (VObj config) (VObj profile) = VObj merged
    /\ (forall v, profile !! k = Some v -> config !! k = None ->
          merged !! k = Some v)
    /\ (forall v c, profile !! k = Some v -> config !! k = Some c ->
          merged !! k = Some v)
    /\ (forall c, profile !! k = None -> config !! k = Some c ->
          merged !! k = Some c)
    /\ (profile !! k = None -> config !! k = None -> merged !! k = None).
Proof.
  exists (profile ∪ config). split; [reflexivity|]. repeat split.
  - intros v Hp _. now apply lookup_union_Some_l.
  - intros v c Hp _. now apply lookup_union_Some_l.
  - intros c Hp Hc. now rewrite lookup_union_r.
  - intros Hp Hc. now rewrite lookup_union_r.
Qed.

(** *** The navigation *)

(** C7 (amended): for a location without a room, outside the Web app,
    [_loadConfig] requests nothing and resolves at once with [undefined],
    and the navigation makes no request; when the text of the location is
    a valid URL, the navigation still commits the location. *)
Theorem welcome_page_skips_fetch location w :
  absent (room location) ->
  APP_defined env = false ->
  _loadConfig location w = (Fulfilled VUndefined, w)
  /\ (forall u, Requested u ∈ trace (_appNavigateToMandatoryLocation location w).2 ->
        Requested u ∈ trace w)
  /\ (URL_throws env location = None ->
      _appNavigateToMandatoryLocation location w =
        (Fulfilled tt,
         {| localStorage := localStorage w;
            trace := trace w ++
              [Dispatched (configWillLoad location);
               Dispatched (setLocationURL location);
               Dispatched (setConfig VUndefined);
               Dispatched (setRoom (room location))] |})
      /\ Dispatched (setLocationURL location)
           ∈ trace (_appNavigateToMandatoryLocation location w).2).
Proof.
  intros Hroom Happ.
  assert (F : fetches location = false).
  { unfold fetches. apply str_truthy_false in Hroom. now rewrite Hroom, Happ. }
  split; [now apply loadConfig_skipped|]. split.
  - intros u. rewrite navigate_run, loadConfig_skipped by assumption.
    destruct (URL_throws env location); simpl; intros Hu.
    + apply list_elem_of_In, in_app_or in Hu as [Hu|Hu].
      * now apply list_elem_of_In.
      * simpl in Hu. intuition discriminate.
    + rewrite <- !app_assoc in Hu.
      apply list_elem_of_In, in_app_or in Hu as [Hu|Hu].
      * now apply list_elem_of_In.
      * simpl in Hu. intuition discriminate.
  - intros Hurl.
    assert (Hnav : _appNavigateToMandatoryLocation location w =
         (Fulfilled tt,
          {| localStorage := localStorage w;
             trace := trace w ++
               [Dispatched (configWillLoad location);
                Dispatched (setLocationURL location);
                Dispatched (setConfig VUndefined);
                Dispatched (setRoom (room location))] |})).
    { rewrite navigate_run, loadConfig_skipped, Hurl by assumption. simpl.
      unfold emit; simpl. now rewrite <- !app_assoc. }
    split; [exact Hnav|]. rewrite Hnav; simpl.
    apply list_elem_of_In, in_or_app. right. simpl. auto.
Qed.

Lemma loadConfig_trace_commits location w c :
  Dispatched (setConfig c) ∈ trace (_loadConfig location w).2 ->
  Dispatched (setConfig c) ∈ trace w.
Proof.
  rewrite loadConfig_trace. intros H.
  apply list_elem_of_In, in_app_or in H as [H|H]; [now apply list_elem_of_In|].
  destruct (fetches location); simpl in H; intuition discriminate.
Qed.

Lemma loadConfig_trace_rooms location w r :
  Dispatched (setRoom r) ∈ trace (_loadConfig location w).2 ->
  Dispatched (setRoom r) ∈ trace w.
Proof.
  rewrite loadConfig_trace. intros H.
  apply list_elem_of_In, in_app_or in H as [H|H]; [now apply list_elem_of_In|].
  destruct (fetches location); simpl in H; intuition discriminate.
Qed.

(** C2 (amended): for a location whose text is a valid URL: when the load
    settles without an error and with a configuration (a truthy value), the
    navigation commits the merged object, never [undefined]; when it
    settles without an error and without a configuration (as when the fetch
    is skipped), it commits [undefined]; when it settles with an error (a
    truthy reason), it commits the location, commits no configuration, and
    rejects with that error. *)
Theorem committed_configuration location w settled w1 :
  _loadConfig location (emit (Dispatched (configWillLoad location)) w)
    = (settled, w1) ->
  URL_throws env location = None ->
  match settled with
  | Fulfilled config =>
      exists committed,
        _appNavigateToMandatoryLocation location w =
          (Fulfilled tt,
           {| localStorage := localStorage w1;
              trace := trace w1 ++
                [Dispatched (setLocationURL location);
                 Dispatched (setConfig committed);
                 Dispatched (setRoom (room location))] |})
        /\ (truthy config = true ->
             committed <> VUndefined
             /\ committed =
                 VObj (own_props (getProfile env)
                         ∪ own_props (overridden config location)))
        /\ (truthy config = false -> committed = VUndefined)
  | Rejected error =>
      truthy error = true ->
      _appNavigateToMandatoryLocation location w =
        (Rejected error,
         {| localStorage := localStorage w1;
            trace := trace w1 ++
              [Dispatched (setLocationURL location);
               Dispatched (loadConfigError error location)] |})
      /\ (forall c,
            Dispatched (setConfig c)
              ∈ trace (_appNavigateToMandatoryLocation location w).2 ->
            Dispatched (setConfig c) ∈ trace w)
  end.
Proof.
  intros Hload Hurl. pose proof (navigate_run location w) as Hnav.
  rewrite Hload, Hurl in Hnav. destruct settled as [config|error].
  - cbv beta iota zeta in Hnav. rewrite emit_emit_emit in Hnav.
    eexists. split; [exact Hnav|]. split.
    + intros Ht. rewrite Ht, merge_truthy by now rewrite overridden_truthy.
      split; [discriminate | reflexivity].
    + intros Ht. rewrite Ht. unfold _mergeConfigWithProfile. now rewrite Ht.
  - intros Herror. cbv beta iota zeta in Hnav.
    rewrite Herror, emit_emit in Hnav. split; [exact Hnav|].
    intros c. rewrite Hnav. simpl. intros H.
    apply list_elem_of_In, in_app_or in H as [H|H].
    + apply list_elem_of_In in H.
      replace w1 with
        (_loadConfig location (emit (Dispatched (configWillLoad location)) w)).2
        in H by now rewrite Hload.
      apply loadConfig_trace_commits in H. simpl in H.
      apply list_elem_of_In, in_app_or in H as [H|H]; [now apply list_elem_of_In|].
      simpl in H. intuition discriminate.
    + simpl in H. intuition discriminate.
Qed.

(** C5 (amended): when the load settles with an error [E] (a truthy
    reason) for a location whose text is a valid URL, the navigation
    commits the location, then dispatches the load-failure action carrying
    [E] and the location, and rejects with [E]. *)
Theorem load_failure_reported location w error w1 :
  _loadConfig location (emit (Dispatched (configWillLoad location)) w)
    = (Rejected error, w1) ->
  truthy error = true ->
  URL_throws env location = None ->
  _appNavigateToMandatoryLocation location w =
    (Rejected error,
     {| localStorage := localStorage w1;
        trace := trace w1 ++
          [Dispatched (setLocationURL location);
           Dispatched (loadConfigError error location)] |}).
Proof.
  intros Hload Herror Hurl.
  rewrite navigate_run, Hload, Hurl. cbv beta iota zeta.
  now rewrite Herror, emit_emit.
Qed.

(** C10 (amended): for a location whose text is a valid URL: when the
    load settles successfully, the navigation dispatches [setRoom] with the
    room of the location, once, after the location and the configuration;
    when the load settles with an error (a truthy reason), it dispatches no
    [setRoom]. *)
Theorem room_committed_on_success location w :
  URL_throws env location = None ->
  (forall config w1,
      _loadConfig location (emit (Dispatched (configWillLoad location)) w)
        = (Fulfilled config, w1) ->
      exists committed,
        _appNavigateToMandatoryLocation location w =
          (Fulfilled tt,
           {| localStorage := localStorage w1;
              trace := trace w1 ++
                [Dispatched (setLocationURL location);
                 Dispatched (setConfig committed);
                 Dispatched (setRoom (room location))] |}))
  /\ (forall error w1,
        _loadConfig location (emit (Dispatched (configWillLoad location)) w)
          = (Rejected error, w1) ->
        truthy error = true ->
        forall r,
          Dispatched (setRoom r)
            ∈ trace (_appNavigateToMandatoryLocation location w).2 ->
          Dispatched (setRoom r) ∈ trace w).
Proof.
  intros Hurl. split.
  - intros config w1 Hload. rewrite navigate_run, Hload, Hurl.
    cbv beta iota zeta. rewrite emit_emit_emit. eauto.
  - intros error w1 Hload Herror r.
    rewrite navigate_run, Hload, Hurl. cbv beta iota zeta.
    rewrite Herror, emit_emit. simpl.
    intros H. apply list_elem_of_In, in_app_or in H as [H|H].
    + apply list_elem_of_In in H.
      replace w1 with
        (_loadConfig location (emit (Dispatched (configWillLoad location)) w)).2
        in H by now rewrite Hload.
      apply loadConfig_trace_rooms in H. simpl in H.
      apply list_elem_of_In, in_app_or in H as [H|H]; [now apply list_elem_of_In|].
      simpl in H. intuition discriminate.
    + simpl in H. intuition discriminate.
Qed.

(** ** Further properties of the code *)

(** *** The load *)

Lemma navigate_storage location w :
  localStorage (_appNavigateToMandatoryLocation location w).2
  = localStorage
      (_loadConfig location (emit (Dispatched (configWillLoad location)) w)).2.
Proof.
  rewrite navigate_run.
  destruct (_loadConfig location _) as [[config|error] w1];
    destruct (URL_throws env location); try reflexivity.
  simpl. now destruct (truthy error).
Qed.

Lemma loadConfig_written location w config storage text :
  fetches location = true ->
  loadConfig env (url location) = Fulfilled config ->
  typeof_undefined (target (window_config env)) = true
    \/ strict_equal (window_config env) config = false ->
  localStorage w = Some storage ->
  JSON_stringify (target config) = Returns text ->
  setItem_accepts env (key location) (default "undefined" text) = true ->
  _loadConfig location w =
    (Fulfilled (target config),
     with_storage (<[key location := default "undefined" text]> storage)
       (emit (Requested (url location)) w)).
Proof.
  intros F Hfetch Hneq Hw Hjson Hset.
  rewrite loadConfig_fetched by assumption. cbv zeta.
  rewrite Hfetch. unfold store_config.
  replace (typeof_undefined (target (window_config env))
           || negb (strict_equal (window_config env) config)) with true
    by (destruct Hneq as [-> | ->]; [reflexivity | now rewrite orb_true_r]).
  simpl. rewrite Hw, Hjson. cbv zeta. now rewrite Hset.
Qed.

(** X1: [_loadConfig] rejects with an error exactly when a fetch was made,
    the fetch rejected with that error, and the cache is of no help: the
    store cannot be read, or has no entry under the key, or an empty one,
    or one that does not parse. *)
Theorem loadConfig_rejects_iff location w error :
  (_loadConfig location w).1 = Rejected error <->
  fetches location = true
  /\ loadConfig env (url location) = Rejected error
  /\ match localStorage w with
     | None => True
     | Some storage =>
         match storage !! key location with
         | None => True
         | Some text => text = "" \/ JSON_parse text = Throws
         end
     end.
Proof.
  destruct (fetches location) eqn:F.
  - rewrite loadConfig_fetched by assumption. cbv zeta.
    destruct (loadConfig env (url location)) as [config|e]; simpl.
    { split; [discriminate | intros (_ & H & _); discriminate]. }
    unfold cached_config. simpl.
    destruct (localStorage w) as [storage|]; simpl.
    + destruct (storage !! key location) as [text|]; simpl.
      * destruct (String.eqb text "") eqn:E; simpl.
        -- apply String.eqb_eq in E. split.
           ++ intros [= ->]. auto.
           ++ now intros (_ & [= ->] & _).
        -- apply String.eqb_neq in E.
           destruct (JSON_parse text) as [parsed|]; simpl; split.
           ++ discriminate.
           ++ intros (_ & _ & [H|H]); [contradiction | discriminate].
           ++ intros [= ->]. auto.
           ++ now intros (_ & [= ->] & _).
      * split; [intros [= ->]; auto | now intros (_ & [= ->] & _)].
    + split; [intros [= ->]; auto | now intros (_ & [= ->] & _)].
  - rewrite loadConfig_skipped by assumption. simpl.
    split; [discriminate | intros (H & _); discriminate].
Qed.

(** X2: caching is optional.  When the fetch succeeds, [_loadConfig]
    resolves with the fetched document after a single request, whatever
    becomes of the write; the store is left as it was or has the one entry
    under the key of the deployment set. *)
Theorem cache_write_optional location w config :
  fetches location = true ->
  loadConfig env (url location) = Fulfilled config ->
  (_loadConfig location w).1 = Fulfilled (target config)
  /\ trace (_loadConfig location w).2 = trace w ++ [Requested (url location)]
  /\ (localStorage (_loadConfig location w).2 = localStorage w
      \/ exists storage text,
          localStorage w = Some storage
          /\ localStorage (_loadConfig location w).2
             = Some (<[key location := text]> storage)).
Proof.
  intros F Hfetch. rewrite loadConfig_fetched by assumption. cbv zeta.
  rewrite Hfetch. simpl. split; [reflexivity|].
  split; [apply store_config_trace|].
  unfold store_config.
  destruct (typeof_undefined _ || negb _); [|now left].
  simpl. destruct (localStorage w) as [storage|] eqn:Hw; [|now left].
  destruct (JSON_stringify (target config)) as [text|]; [|now left].
  cbv zeta. destruct (setItem_accepts env _ _); [|now left].
  right. now exists storage, (default "undefined" text).
Qed.

(** X3: when reading [window.localStorage] throws, [_loadConfig] settles as
    the fetch does (or resolves with [undefined] when the fetch is skipped),
    and the navigation leaves the store alone. *)
Theorem storage_inaccessible location w :
  localStorage w = None ->
  (_loadConfig location w).1 =
    (if fetches location
     then match loadConfig env (url location) with
          | Fulfilled config => Fulfilled (target config)
          | Rejected error => Rejected error
          end
     else Fulfilled VUndefined)
  /\ localStorage (_appNavigateToMandatoryLocation location w).2 = None.
Proof.
  intros Hw.
  assert (H : forall w', localStorage w' = None ->
    (_loadConfig location w').1 =
      (if fetches location
       then match loadConfig env (url location) with
            | Fulfilled config => Fulfilled (target config)
            | Rejected error => Rejected error
            end
       else Fulfilled VUndefined)
    /\ localStorage (_loadConfig location w').2 = None).
  { intros w' Hw'. destruct (fetches location) eqn:F.
    - rewrite loadConfig_fetched by assumption. cbv zeta.
      destruct (loadConfig env (url location)) as [config|error]; simpl.
      + split; [reflexivity|]. unfold store_config.
        destruct (typeof_undefined _ || negb _); simpl; now rewrite ?Hw'.
      + unfold cached_config. simpl. now rewrite Hw'.
    - rewrite loadConfig_skipped by assumption. now split. }
  split; [now apply H|].
  rewrite navigate_storage. now apply H.
Qed.

(** X4: the cache is shared by the rooms of a deployment.  When the fetch
    for one room succeeds and its document is cached, a later load for
    another room of the same deployment whose fetch fails resolves with that
    document. *)
Theorem cache_shared_across_rooms location1 location2 w config storage text error :
  protocol location2 = protocol location1 ->
  host location2 = host location1 ->
  contextRoot location2 = contextRoot location1 ->
  fetches location1 = true ->
  fetches location2 = true ->
  loadConfig env (url location1) = Fulfilled config ->
  loadConfig env (url location2) = Rejected error ->
  typeof_undefined (target (window_config env)) = true
    \/ strict_equal (window_config env) config = false ->
  localStorage w = Some storage ->
  JSON_stringify (target config) = Returns (Some text) ->
  setItem_accepts env (key location1) text = true ->
  JSON_parse text = Returns (target config) ->
  (_loadConfig location2 (_loadConfig location1 w).2).1 = Fulfilled (target config).
Proof.
  intros Hp Hh Hc F1 F2 Hfetch1 Hfetch2 Hneq Hw Hjson Hset Hparse.
  assert (Hkey : key location2 = key location1).
  { unfold key, baseURL, fetch_protocol. now rewrite Hp, Hh, Hc. }
  rewrite (loadConfig_written location1 w config storage (Some text)) by assumption.
  rewrite loadConfig_fetched by assumption. cbv zeta.
  rewrite Hfetch2. unfold cached_config. simpl.
  rewrite Hkey, lookup_insert_eq.
  destruct (String.eqb text "") eqn:E.
  - apply String.eqb_eq in E. subst text. congruence.
  - simpl. now rewrite Hparse.
Qed.

(** X5: a fetched value that [JSON.stringify] has no text for (it returns
    [undefined]) is stored as the text ["undefined"]; a later load of the
    deployment whose fetch fails finds that the entry does not parse,
    removes it and rejects with the error of its fetch, leaving the store
    without an entry under the key. *)
Theorem unserializable_entry_discarded location1 location2 w config storage error :
  protocol location2 = protocol location1 ->
  host location2 = host location1 ->
  contextRoot location2 = contextRoot location1 ->
  fetches location1 = true ->
  fetches location2 = true ->
  loadConfig env (url location1) = Fulfilled config ->
  loadConfig env (url location2) = Rejected error ->
  typeof_undefined (target (window_config env)) = true
    \/ strict_equal (window_config env) config = false ->
  localStorage w = Some storage ->
  JSON_stringify (target config) = Returns None ->
  setItem_accepts env (key location1) "undefined" = true ->
  JSON_parse "undefined" = Throws ->
  localStorage (_loadConfig location1 w).2
    = Some (<[key location1 := "undefined"]> storage)
  /\ (_loadConfig location2 (_loadConfig location1 w).2).1 = Rejected error
  /\ localStorage (_loadConfig location2 (_loadConfig location1 w).2).2
     = Some (delete (key location1) storage).
Proof.
  intros Hp Hh Hc F1 F2 Hfetch1 Hfetch2 Hneq Hw Hjson Hset Hparse.
  assert (Hkey : key location2 = key location1).
  { unfold key, baseURL, fetch_protocol. now rewrite Hp, Hh, Hc. }
  rewrite (loadConfig_written location1 w config storage None) by assumption.
  split; [reflexivity|].
  rewrite loadConfig_fetched by assumption. cbv zeta.
  rewrite Hfetch2. unfold cached_config. simpl.
  rewrite Hkey, lookup_insert_eq. simpl. rewrite Hparse. simpl.
  split; [reflexivity|]. now rewrite delete_insert_eq.
Qed.

(** *** The merge *)

(** X6: the merge of a config object with a profile object has the keys of
    the two and no other. *)
Theorem merge_keys (config profile : gmap string Value) :
  exists merged,
    _mergeConfigWithProfile (VObj config) (VObj profile) = VObj merged
    /\ dom merged = dom config ∪ dom profile.
Proof.
  exists (profile ∪ config). split; [reflexivity|].
  rewrite dom_union_L. apply (comm_L (∪)).
Qed.

(** X7: merging the profile into a merged configuration again changes
    nothing, whatever the config and the profile are. *)
Theorem merge_idempotent (config profile : Value) :
  _mergeConfigWithProfile (_mergeConfigWithProfile config profile) profile
  = _mergeConfigWithProfile config profile.
Proof.
  unfold _mergeConfigWithProfile.
  destruct (truthy config); simpl; [|reflexivity].
  now rewrite (assoc_L (∪)), (idemp_L (∪)).
Qed.

(** X8: a profile that is [undefined], [null], a boolean, a number or an
    object without properties leaves the properties of a config object as
    they are. *)
Theorem merge_without_profile (config : gmap string Value) :
  _mergeConfigWithProfile (VObj config) VUndefined = VObj config
  /\ _mergeConfigWithProfile (VObj config) VNull = VObj config
  /\ (forall b, _mergeConfigWithProfile (VObj config) (VBool b) = VObj config)
  /\ (forall n, _mergeConfigWithProfile (VObj config) (VNum n) = VObj config)
  /\ _mergeConfigWithProfile (VObj config) (VObj ∅) = VObj config.
Proof.
  unfold _mergeConfigWithProfile; simpl.
  repeat split; intros; now rewrite (left_id_L ∅ (∪)).
Qed.

(** *** The navigation *)

(** X9: the order of precedence in the committed configuration.  For a
    location whose text is a valid URL, a loaded config object and a
    profile object, every key of the profile has the profile's value, and
    every other key has the value that [setConfigFromURLParams] left in the
    config. *)
Theorem profile_overrides_url_params location w config w1 profile :
  _loadConfig location (emit (Dispatched (configWillLoad location)) w)
    = (Fulfilled (VObj config), w1) ->
  URL_throws env location = None ->
  getProfile env = VObj profile ->
  exists committed,
    _appNavigateToMandatoryLocation location w =
      (Fulfilled tt,
       {| localStorage := localStorage w1;
          trace := trace w1 ++
            [Dispatched (setLocationURL location);
             Dispatched (setConfig (VObj committed));
             Dispatched (setRoom (room location))] |})
    /\ forall k,
        committed !! k =
          match profile !! k with
          | Some v => Some v
          | None => setConfigFromURLParams env location config !! k
          end.
Proof.
  intros Hload Hurl Hprofile.
  exists (profile ∪ setConfigFromURLParams env location config). split.
  - rewrite navigate_run, Hload, Hurl. cbv beta iota zeta.
    rewrite emit_emit_emit. simpl. now rewrite Hprofile.
  - intros k. destruct (profile !! k) as [v|] eqn:Hk.
    + now apply lookup_union_Some_l.
    + now rewrite lookup_union_r.
Qed.

(** X10: the dispatches of a navigation.  Every navigation dispatches
    [configWillLoad] first and makes at most one request.  Then, when the
    text of the location is no valid URL, it dispatches nothing more and
    rejects with what [new URL] throws; otherwise it dispatches
    [setLocationURL] and then either [setConfig] and [setRoom] (and
    fulfils) or, when the load rejected with a truthy reason,
    [loadConfigError] alone (and rejects with that reason). *)
Theorem navigation_dispatches location w :
  exists requests outcome,
    trace (_appNavigateToMandatoryLocation location w).2 =
      trace w ++ [Dispatched (configWillLoad location)] ++ requests ++ outcome
    /\ (requests = [] \/ requests = [Requested (url location)])
    /\ ((exists thrown,
           URL_throws env location = Some thrown
           /\ (_appNavigateToMandatoryLocation location w).1 = Rejected thrown
           /\ outcome = [])
        \/ (exists committed,
             URL_throws env location = None
             /\ (_appNavigateToMandatoryLocation location w).1 = Fulfilled tt
             /\ outcome = [Dispatched (setLocationURL location);
                           Dispatched (setConfig committed);
                           Dispatched (setRoom (room location))])
        \/ (exists error,
             URL_throws env location = None
             /\ truthy error = true
             /\ (_loadConfig location
                   (emit (Dispatched (configWillLoad location)) w)).1
                = Rejected error
             /\ (_appNavigateToMandatoryLocation location w).1 = Rejected error
             /\ outcome = [Dispatched (setLocationURL location);
                           Dispatched (loadConfigError error location)])).
Proof.
  exists (if fetches location then [Requested (url location)] else []).
  pose proof (loadConfig_trace location
                (emit (Dispatched (configWillLoad location)) w)) as Htrace.
  assert (Hreq : (if fetches location then [Requested (url location)] else [])
                 = [] \/
                 (if fetches location then [Requested (url location)] else [])
                 = [Requested (url location)])
    by (destruct (fetches location); auto).
  rewrite navigate_run.
  destruct (_loadConfig location _) as [settled w1]; simpl in Htrace.
  destruct (URL_throws env location) as [thrown|].
  - exists []. split; [|split; [exact Hreq|]].
    + simpl. rewrite Htrace, <- !app_assoc. simpl. now rewrite app_nil_r.
    + left. now exists thrown.
  - destruct settled as [config|error]; cbv beta iota zeta.
    + eexists. split; [|split; [exact Hreq|]].
      * simpl. rewrite Htrace, <- !app_assoc. reflexivity.
      * right; left. eexists. repeat split; reflexivity.
    + destruct (truthy error) eqn:Herror.
      * eexists. split; [|split; [exact Hreq|]].
        -- simpl. rewrite Htrace, <- !app_assoc. reflexivity.
        -- right; right. exists error. repeat split; reflexivity || assumption.
      * eexists. split; [|split; [exact Hreq|]].
        -- simpl. rewrite Htrace, <- !app_assoc. reflexivity.
        -- right; left. eexists. repeat split; reflexivity.
Qed.

(** *** The location of a navigation *)

Lemma str_or_truthy (o : option string) (d : string) :
  d <> "" -> str_or o d <> "".
Proof.
  intros Hd. destruct o as [s|]; simpl; [|exact Hd].
  destruct (String.eqb s "") eqn:E; [exact Hd | now apply String.eqb_neq].
Qed.

(** X11: a location with a host is navigated to as it is: with its host,
    context root and room, and with its protocol or [https:] when it has
    none; the default URL of the app plays no part and nothing throws. *)
Theorem location_with_host_kept location h :
  uri_host location = Some h ->
  h <> "" ->
  _appNavigateToOptionalLocation (Some location) =
    Returns
      (_appNavigateToMandatoryLocation
         {| protocol := str_or (uri_protocol location) "https:";
            host := h;
            contextRoot := uri_contextRoot location;
            room := uri_room location |}).
Proof.
  intros Hh Hne. unfold _appNavigateToOptionalLocation, with_default_host.
  rewrite Hh. simpl. apply String.eqb_neq in Hne. rewrite Hne. simpl.
  unfold as_location, template. now rewrite Hh.
Qed.

(** X12: a location without a host takes the host of the default location
    and with it the protocol of the default location, whatever protocol it
    had itself; it keeps its context root and its room. *)
Theorem default_host_adopted location default :
  str_truthy (uri_host location) = false ->
  defaultLocation = Some default ->
  _appNavigateToOptionalLocation (Some location) =
    Returns
      (_appNavigateToMandatoryLocation
         {| protocol := str_or (uri_protocol default) "https:";
            host := template (uri_host default);
            contextRoot := uri_contextRoot location;
            room := uri_room location |}).
Proof.
  intros Hh Hd. unfold _appNavigateToOptionalLocation, with_default_host.
  now rewrite Hh, Hd.
Qed.

(** X13: the navigation throws, before it has dispatched anything, exactly
    when it needs the default location (there is no location, or the
    location has no host) and the default URL does not parse. *)
Theorem navigation_throws_iff location :
  _appNavigateToOptionalLocation location = Throws <->
  defaultLocation = None
  /\ (location = None
      \/ exists l, location = Some l /\ str_truthy (uri_host l) = false).
Proof.
  unfold _appNavigateToOptionalLocation, with_default_host.
  destruct location as [l|].
  - destruct (str_truthy (uri_host l)) eqn:Hh; simpl.
    + split; [discriminate|]. intros (_ & [H|(l' & [= <-] & H)]); congruence.
    + destruct defaultLocation as [d|]; split; try discriminate.
      * intros (H & _). discriminate.
      * intros _. split; [reflexivity|]. right. now exists l.
      * reflexivity.
  - destruct defaultLocation as [d|]; split; try discriminate.
    + intros (H & _). discriminate.
    + auto.
    + reflexivity.
Qed.

(** X14: filling in the default host is idempotent: a location that has
    been filled in is left as it is when it is filled in again. *)
Theorem with_default_host_idempotent location filled :
  with_default_host location = Returns filled ->
  with_default_host (Some filled) = Returns filled.
Proof.
  unfold with_default_host. intros H.
  destruct location as [l|].
  - destruct (str_truthy (uri_host l)) eqn:Hh; simpl in H.
    + injection H as <-. now rewrite Hh.
    + destruct defaultLocation as [d|]; [|discriminate].
      injection H as <-. simpl.
      destruct (str_truthy (uri_host d)); reflexivity.
  - destruct defaultLocation as [d|]; [|discriminate].
    injection H as <-.
    destruct (str_truthy (uri_host d)); simpl; [reflexivity|].
    now destruct d.
Qed.

(** X15: whenever the navigation to a URI goes ahead, the location it
    navigates to has a protocol that is not empty, so that [_loadConfig]
    can lowercase it; it is [https:] when the location that was filled in
    has no protocol. *)
Theorem navigated_protocol_set location navigation :
  _appNavigateToOptionalLocation location = Returns navigation ->
  exists filled,
    with_default_host location = Returns filled
    /\ navigation = _appNavigateToMandatoryLocation (as_location filled)
    /\ protocol (as_location filled) <> ""
    /\ (str_truthy (uri_protocol filled) = false ->
        protocol (as_location filled) = "https:").
Proof.
  unfold _appNavigateToOptionalLocation.
  destruct (with_default_host location) as [filled|]; [|discriminate].
  intros [= <-]. exists filled. repeat split.
  - now apply str_or_truthy.
  - intros H. apply str_truthy_false in H as [H|H]; simpl; now rewrite H.
Qed.

(** X16: [appNavigate] without a URI in the mobile app, when the default
    URL names no room and the text of the default location is a valid URL:
    the app navigates to the default location, makes no request, leaves
    the store alone and commits no configuration but [undefined]. *)
Theorem appNavigate_without_uri default w :
  parseURIString uris None = None ->
  defaultLocation = Some default ->
  absent (uri_room default) ->
  APP_defined env = false ->
  URL_throws env (as_location default) = None ->
  exists navigation,
    appNavigate None = Returns navigation
    /\ navigation w =
       (Fulfilled tt,
        {| localStorage := localStorage w;
           trace := trace w ++
             [Dispatched (configWillLoad (as_location default));
              Dispatched (setLocationURL (as_location default));
              Dispatched (setConfig VUndefined);
              Dispatched (setRoom (uri_room default))] |}).
Proof.
  intros Hparse Hd Hroom Happ Hurl.
  unfold appNavigate, _appNavigateToOptionalLocation, with_default_host.
  rewrite Hparse, Hd. eexists. split; [reflexivity|].
  assert (F : fetches (as_location default) = false).
  { unfold fetches. simpl. apply str_truthy_false in Hroom.
    now rewrite Hroom, Happ. }
  rewrite navigate_run, loadConfig_skipped, Hurl by assumption. simpl.
  unfold emit; simpl. now rewrite <- !app_assoc.
Qed.

(** *** The requested URL, again *)

(** X17: a location whose protocol is neither [http:] nor [https:], as the
    scheme of the mobile app, requests the URL and uses the cache entry of
    the same location under [https:]. *)
Theorem app_scheme_fetches_https location1 location2 :
  toLowerCase (protocol location1) <> "http:" ->
  toLowerCase (protocol location1) <> "https:" ->
  toLowerCase (protocol location2) = "https:" ->
  host location2 = host location1 ->
  contextRoot location2 = contextRoot location1 ->
  room location2 = room location1 ->
  url location1 = url location2 /\ key location1 = key location2.
Proof.
  intros H1 H2 H3 Hh Hc Hr.
  assert (Hbase : baseURL location1 = baseURL location2).
  { unfold baseURL, fetch_protocol. rewrite Hh, Hc, H3.
    apply String.eqb_neq in H1, H2. now rewrite H1, H2. }
  unfold url, key. now rewrite Hbase, Hr.
Qed.

(** X18: the requested URL does not depend on the case of the protocol or
    of the room: two locations of one host and context root whose protocols
    and whose rooms are the same once lowercased request the same URL. *)
Theorem url_case_insensitive location1 location2 room1 room2 :
  toLowerCase (protocol location1) = toLowerCase (protocol location2) ->
  host location1 = host location2 ->
  contextRoot location1 = contextRoot location2 ->
  room location1 = Some room1 ->
  room location2 = Some room2 ->
  room1 <> "" ->
  room2 <> "" ->
  toLowerCase room1 = toLowerCase room2 ->
  url location1 = url location2.
Proof.
  intros Hp Hh Hc Hr1 Hr2 Hn1 Hn2 Hr.
  unfold url, baseURL, fetch_protocol. rewrite Hp, Hh, Hc, Hr1, Hr2.
  apply String.eqb_neq in Hn1, Hn2. now rewrite Hn1, Hn2, Hr.
Qed.

(** X19: in the Web app the configuration is requested also for a location
    without a room, from the URL without a [room] parameter. *)
Theorem web_app_fetches_without_room location w :
  APP_defined env = true ->
  absent (room location) ->
  trace (_loadConfig location w).2
  = trace w ++ [Requested (baseURL location +:+ "config.js")].
Proof.
  intros Happ Hroom. rewrite loadConfig_trace.
  unfold fetches. rewrite Happ, orb_true_r.
  unfold url. now destruct Hroom as [-> | ->].
Qed.

End Actions.

(** ** The model at concrete navigations *)

Local Abbreviation run_loadConfig :=
  (_loadConfig string_toLowerCase literal_stringify literal_parse).
Local Abbreviation run_navigate :=
  (_appNavigateToMandatoryLocation string_toLowerCase literal_stringify literal_parse).
Local Abbreviation example_key := (key string_toLowerCase example_location).
Local Abbreviation example_url := (url string_toLowerCase example_location).

Example example_url_value :
  example_url = "https://meet.example.com/config.js?room=test".
Proof. reflexivity. Qed.

Example example_key_value :
  example_key = "config.js/https://meet.example.com/".
Proof. reflexivity. Qed.

Example app_url_value :
  url string_toLowerCase app_location
  = "https://meet.example.com/config.js?room=teamsync".
Proof. reflexivity. Qed.

Example merge_example :
  _mergeConfigWithProfile
    (VObj {[ "displayName" := VStr "Guest"; "startWithAudioMuted" := VBool true ]})
    example_profile
  = VObj {[ "displayName" := VStr "Ann"; "startWithAudioMuted" := VBool true ]}.
Proof. vm_compute. reflexivity. Qed.

(** C1, as stated, fails: after a successful fetch there is no entry under
    ["config/" + baseURL]; the entry is under ["config.js/" + baseURL]. *)
Lemma cache_key_counterexample :
  example_key <> "config/" +:+ "https:" +:+ "//" +:+ "meet.example.com" +:+ "/"
  /\ exists storage',
      localStorage
        (run_loadConfig serving_env
           example_location (world_with ∅)).2 = Some storage'
      /\ storage' !! ("config/" +:+ "https:" +:+ "//" +:+ "meet.example.com" +:+ "/")
         = None
      /\ storage' !! "config.js/https://meet.example.com/" = Some "{}".
Proof.
  split; [discriminate|].
  eexists. split; [vm_compute; reflexivity|].
  split; vm_compute; reflexivity.
Qed.

(** C2, as stated, fails: on the WelcomePage of the mobile app the load
    settles without an error and the configuration committed is
    [undefined].  Its error half fails as well: a load that rejects with
    the empty string for a reason leads to a commit of [undefined], and at
    a location whose text is no valid URL the error of the load is replaced
    by what [new URL] throws, before any commit of the location. *)
Lemma undefined_configuration_counterexample :
  run_loadConfig serving_env welcome_location
    (emit (Dispatched (configWillLoad welcome_location)) (world_with ∅))
  = (Fulfilled VUndefined,
     emit (Dispatched (configWillLoad welcome_location)) (world_with ∅))
  /\ run_navigate serving_env welcome_location (world_with ∅)
     = (Fulfilled tt,
        {| localStorage := Some ∅;
           trace := [Dispatched (configWillLoad welcome_location);
                     Dispatched (setLocationURL welcome_location);
                     Dispatched (setConfig VUndefined);
                     Dispatched (setRoom None)] |})
  /\ (run_loadConfig empty_reason_env example_location
        (emit (Dispatched (configWillLoad example_location)) (world_with ∅))).1
     = Rejected (VStr "")
  /\ run_navigate empty_reason_env example_location (world_with ∅)
     = (Fulfilled tt,
        {| localStorage := Some ∅;
           trace := [Dispatched (configWillLoad example_location);
                     Requested example_url;
                     Dispatched (setLocationURL example_location);
                     Dispatched (setConfig VUndefined);
                     Dispatched (setRoom (Some "test"))] |})
  /\ (run_loadConfig offline_env invalid_location
        (emit (Dispatched (configWillLoad invalid_location)) (world_with ∅))).1
     = Rejected fetch_error
  /\ run_navigate offline_env invalid_location (world_with ∅)
     = (Rejected type_error,
        {| localStorage := Some ∅;
           trace := [Dispatched (configWillLoad invalid_location);
                     Requested (url string_toLowerCase invalid_location)] |}).
Proof. repeat split; vm_compute; reflexivity. Qed.

(** The navigation of the mobile app to a room of a deployment that serves
    its document. *)
Lemma committed_configuration_witness :
  run_loadConfig serving_env example_location
    (emit (Dispatched (configWillLoad example_location)) (world_with ∅))
  = (Fulfilled (VObj ∅),
     {| localStorage := Some {[ example_key := "{}" ]};
        trace := [Dispatched (configWillLoad example_location);
                  Requested example_url] |})
  /\ URL_throws serving_env example_location = None
  /\ exists committed,
      run_navigate serving_env example_location
        (world_with ∅)
      = (Fulfilled tt,
         {| localStorage := Some {[ example_key := "{}" ]};
            trace := [Dispatched (configWillLoad example_location);
                      Requested example_url;
                      Dispatched (setLocationURL example_location);
                      Dispatched (setConfig committed);
                      Dispatched (setRoom (Some "test"))] |})
      /\ (truthy (VObj ∅) = true ->
          committed <> VUndefined
          /\ committed =
              VObj (own_props (getProfile serving_env)
                      ∪ own_props (overridden serving_env (VObj ∅) example_location)))
      /\ (truthy (VObj ∅) = false -> committed = VUndefined).
Proof.
  split; [vm_compute; reflexivity|]. split; [reflexivity|].
  apply (committed_configuration string_toLowerCase literal_stringify literal_parse
           serving_env example_location (world_with ∅)
           (Fulfilled (VObj ∅))
           {| localStorage := Some {[ example_key := "{}" ]};
              trace := [Dispatched (configWillLoad example_location);
                        Requested example_url] |});
    vm_compute; reflexivity.
Defined.

(** The deployment is unreachable and the cache holds its document. *)
Lemma cache_fallback_witness :
  fetches offline_env example_location = true
  /\ loadConfig offline_env example_url = Rejected fetch_error
  /\ cached_storage !! example_key = Some "{}"
  /\ literal_parse "{}" = Returns (VObj ∅)
  /\ run_loadConfig offline_env example_location (world_with cached_storage)
     = (Fulfilled (VObj ∅), emit (Requested example_url) (world_with cached_storage))
  /\ (URL_throws offline_env example_location = None ->
      (run_navigate offline_env example_location (world_with cached_storage)).1
      = Fulfilled tt).
Proof.
  do 4 (split; [vm_compute; reflexivity|]).
  apply (cache_fallback string_toLowerCase literal_stringify literal_parse offline_env
           eq_refl example_location (world_with cached_storage) fetch_error cached_storage "{}");
    vm_compute; reflexivity.
Defined.

(** C4, as stated, fails: an entry that is the empty text exists and does
    not deserialize, and [_loadConfig] leaves it in the store. *)
Lemma empty_entry_counterexample :
  empty_entry_storage !! example_key = Some ""
  /\ literal_parse "" = Throws
  /\ run_loadConfig offline_env example_location (world_with empty_entry_storage)
     = (Rejected fetch_error,
        {| localStorage := Some empty_entry_storage; trace := [Requested example_url] |}).
Proof. repeat split; vm_compute; reflexivity. Qed.

(** The deployment is unreachable and the cache holds a truncated text. *)
Lemma corrupt_entry_removed_witness :
  fetches offline_env example_location = true
  /\ corrupt_storage !! example_key = Some "{displayName"
  /\ literal_parse "{displayName" = Throws
  /\ run_loadConfig offline_env example_location (world_with corrupt_storage)
     = (Rejected fetch_error,
        with_storage (delete example_key corrupt_storage)
          (emit (Requested example_url) (world_with corrupt_storage)))
  /\ delete example_key corrupt_storage !! example_key = None.
Proof.
  do 3 (split; [vm_compute; reflexivity|]).
  apply (corrupt_entry_removed string_toLowerCase literal_stringify literal_parse offline_env
           example_location (world_with corrupt_storage) fetch_error corrupt_storage "{displayName");
    solve [vm_compute; reflexivity | discriminate].
Defined.

(** C9, as stated, fails: in the Web app the fetch succeeds with the object
    [window.config] and nothing is written; the entry read back is the
    document of an earlier fetch, or there is none. *)
Lemma window_config_counterexample :
  loadConfig web_env example_url = Fulfilled web_document
  /\ run_loadConfig web_env example_location (world_with cached_storage)
     = (Fulfilled (target web_document),
        {| localStorage := Some cached_storage; trace := [Requested example_url] |})
  /\ read_back literal_parse example_key
       (run_loadConfig web_env example_location (world_with cached_storage)).2
     = Some (Returns (VObj ∅))
  /\ VObj ∅ <> target web_document
  /\ read_back literal_parse example_key
       (run_loadConfig web_env example_location (world_with ∅)).2 = None.
Proof.
  split; [reflexivity|]. split; [vm_compute; reflexivity|].
  split; [vm_compute; reflexivity|]. split; [|vm_compute; reflexivity].
  intros H.
  apply (f_equal (fun v => own_props v !! "disableAudioLevels")) in H.
  vm_compute in H. discriminate.
Qed.

(** The mobile app caches the document it has fetched. *)
Lemma cache_round_trip_witness :
  fetches serving_env example_location = true
  /\ literal_stringify (target fetched_document) = Returns (Some "{}")
  /\ literal_parse "{}" = Returns (target fetched_document)
  /\ run_loadConfig serving_env example_location (world_with ∅)
     = (Fulfilled (target fetched_document),
        with_storage (<[example_key := "{}"]> ∅)
          (emit (Requested example_url) (world_with ∅)))
  /\ read_back literal_parse example_key
       (run_loadConfig serving_env example_location (world_with ∅)).2
     = Some (Returns (target fetched_document)).
Proof.
  do 3 (split; [vm_compute; reflexivity|]).
  apply (cache_round_trip string_toLowerCase literal_stringify literal_parse serving_env
           example_location (world_with ∅) fetched_document ∅ "{}");
    solve [vm_compute; reflexivity | left; reflexivity].
Defined.

(** The deployment is unreachable and the cache is empty. *)
Lemma load_failure_reported_witness :
  run_loadConfig offline_env example_location
    (emit (Dispatched (configWillLoad example_location)) (world_with ∅))
  = (Rejected fetch_error,
     {| localStorage := Some ∅;
        trace := [Dispatched (configWillLoad example_location);
                  Requested example_url] |})
  /\ truthy fetch_error = true
  /\ URL_throws offline_env example_location = None
  /\ run_navigate offline_env example_location (world_with ∅)
     = (Rejected fetch_error,
        {| localStorage := Some ∅;
           trace := [Dispatched (configWillLoad example_location);
                     Requested example_url;
                     Dispatched (setLocationURL example_location);
                     Dispatched (loadConfigError fetch_error example_location)] |}).
Proof.
  split; [vm_compute; reflexivity|]. do 2 (split; [reflexivity|]).
  apply (load_failure_reported string_toLowerCase literal_stringify literal_parse offline_env
           example_location (world_with ∅) fetch_error
           {| localStorage := Some ∅;
              trace := [Dispatched (configWillLoad example_location);
                        Requested example_url] |});
    vm_compute; reflexivity.
Defined.

(** C5, as stated, fails.  A load that rejects with the empty string for a
    reason, the cache being empty, is followed by the commits of a
    successful load: no load-failure action, and the navigation fulfils.
    And at a location whose text is no valid URL the navigation commits no
    location, dispatches no load-failure action, and rejects with what
    [new URL] throws, not with the error of the load. *)
Lemma load_failure_counterexample :
  (run_loadConfig empty_reason_env example_location
     (emit (Dispatched (configWillLoad example_location)) (world_with ∅))).1
  = Rejected (VStr "")
  /\ run_navigate empty_reason_env example_location (world_with ∅)
     = (Fulfilled tt,
        {| localStorage := Some ∅;
           trace := [Dispatched (configWillLoad example_location);
                     Requested example_url;
                     Dispatched (setLocationURL example_location);
                     Dispatched (setConfig VUndefined);
                     Dispatched (setRoom (Some "test"))] |})
  /\ (run_loadConfig offline_env invalid_location
        (emit (Dispatched (configWillLoad invalid_location)) (world_with ∅))).1
     = Rejected fetch_error
  /\ run_navigate offline_env invalid_location (world_with ∅)
     = (Rejected type_error,
        {| localStorage := Some ∅;
           trace := [Dispatched (configWillLoad invalid_location);
                     Requested (url string_toLowerCase invalid_location)] |})
  /\ type_error <> fetch_error.
Proof.
  do 4 (split; [vm_compute; reflexivity|]).
  intros H. apply (f_equal (fun v => own_props v !! "name")) in H.
  vm_compute in H. discriminate.
Qed.

(** The URL requested for a location with the scheme of the mobile app. *)
Lemma fetched_url_format_witness :
  Requested "https://meet.example.com/config.js?room=teamsync"
    ∈ trace (run_loadConfig offline_env app_location (world_with ∅)).2
  /\ exists p cr q,
      "https://meet.example.com/config.js?room=teamsync"
      = p +:+ "//" +:+ "meet.example.com" +:+ cr +:+ "config.js" +:+ q
      /\ p = "https:" /\ cr = "/" /\ q = "?room=teamsync".
Proof.
  assert (Hin : Requested "https://meet.example.com/config.js?room=teamsync"
                ∈ trace (run_loadConfig offline_env app_location (world_with ∅)).2).
  { vm_compute. apply list_elem_of_In. simpl. auto. }
  split; [exact Hin|].
  destruct (fetched_url_format string_toLowerCase literal_stringify literal_parse offline_env
              app_location (world_with ∅) _ Hin)
    as (p & cr & q & Hu & _ & _ & Hp & Hcr & _ & _ & Hq).
  { simpl. apply not_elem_of_nil. }
  exists p, cr, q. split; [exact Hu|]. split; [|split].
  - apply Hp; vm_compute; discriminate.
  - apply Hcr. now left.
  - apply (Hq "TeamSync"); [reflexivity | discriminate].
Defined.

(** The WelcomePage of the mobile app. *)
Lemma welcome_page_skips_fetch_witness :
  absent (room welcome_location)
  /\ APP_defined offline_env = false
  /\ URL_throws offline_env welcome_location = None
  /\ run_loadConfig offline_env welcome_location (world_with ∅)
     = (Fulfilled VUndefined, world_with ∅)
  /\ Dispatched (setLocationURL welcome_location)
       ∈ trace (run_navigate offline_env welcome_location (world_with ∅)).2.
Proof.
  assert (Hroom : absent (room welcome_location)) by now left.
  destruct (welcome_page_skips_fetch string_toLowerCase literal_stringify literal_parse
              offline_env welcome_location (world_with ∅) Hroom eq_refl)
    as (Hload & _ & Hcommit).
  destruct (Hcommit eq_refl) as (_ & Hin).
  repeat split; assumption || reflexivity.
Defined.

(** C7, as stated, fails: at a WelcomePage whose text is no valid URL the
    load is skipped and resolves with [undefined], but the navigation
    commits no location and rejects with what [new URL] throws. *)
Lemma welcome_page_counterexample :
  absent (room invalid_welcome_location)
  /\ APP_defined offline_env = false
  /\ run_loadConfig offline_env invalid_welcome_location
       (emit (Dispatched (configWillLoad invalid_welcome_location)) (world_with ∅))
     = (Fulfilled VUndefined,
        emit (Dispatched (configWillLoad invalid_welcome_location)) (world_with ∅))
  /\ run_navigate offline_env invalid_welcome_location (world_with ∅)
     = (Rejected type_error,
        {| localStorage := Some ∅;
           trace := [Dispatched (configWillLoad invalid_welcome_location)] |}).
Proof.
  split; [now left|]. repeat split; vm_compute; reflexivity.
Qed.

(** The mobile app navigates to a room of a deployment that serves its
    document. *)
Lemma room_committed_on_success_witness :
  URL_throws serving_env example_location = None
  /\ (forall config w1,
        run_loadConfig serving_env example_location
          (emit (Dispatched (configWillLoad example_location)) (world_with ∅))
        = (Fulfilled config, w1) ->
        exists committed,
          run_navigate serving_env example_location (world_with ∅) =
            (Fulfilled tt,
             {| localStorage := localStorage w1;
                trace := trace w1 ++
                  [Dispatched (setLocationURL example_location);
                   Dispatched (setConfig committed);
                   Dispatched (setRoom (room example_location))] |}))
  /\ (forall error w1,
        run_loadConfig serving_env example_location
          (emit (Dispatched (configWillLoad example_location)) (world_with ∅))
        = (Rejected error, w1) ->
        truthy error = true ->
        forall r,
          Dispatched (setRoom r)
            ∈ trace (run_navigate serving_env example_location (world_with ∅)).2 ->
          Dispatched (setRoom r) ∈ trace (world_with ∅)).
Proof.
  split; [reflexivity|].
  apply (room_committed_on_success string_toLowerCase literal_stringify literal_parse
           serving_env example_location (world_with ∅)).
  reflexivity.
Defined.

(** C10, as stated, fails.  A load that rejects with the empty string for
    a reason, the cache being empty, is followed by a [setRoom]; and at a
    location whose text is no valid URL a load that fulfils is followed by
    no [setRoom]. *)
Lemma room_commit_counterexample :
  (run_loadConfig empty_reason_env example_location
     (emit (Dispatched (configWillLoad example_location)) (world_with ∅))).1
  = Rejected (VStr "")
  /\ run_navigate empty_reason_env example_location (world_with ∅)
     = (Fulfilled tt,
        {| localStorage := Some ∅;
           trace := [Dispatched (configWillLoad example_location);
                     Requested example_url;
                     Dispatched (setLocationURL example_location);
                     Dispatched (setConfig VUndefined);
                     Dispatched (setRoom (Some "test"))] |})
  /\ (run_loadConfig serving_env invalid_location
        (emit (Dispatched (configWillLoad invalid_location)) (world_with ∅))).1
     = Fulfilled (VObj ∅)
  /\ trace (run_navigate serving_env invalid_location (world_with ∅)).2
     = [Dispatched (configWillLoad invalid_location);
        Requested (url string_toLowerCase invalid_location)]
  /\ (run_navigate serving_env invalid_location (world_with ∅)).1
     = Rejected type_error.
Proof. repeat split; vm_compute; reflexivity. Qed.

(** ** The further properties at concrete navigations *)

Local Abbreviation run_optional :=
  (_appNavigateToOptionalLocation string_toLowerCase literal_stringify literal_parse).
Local Abbreviation run_appNavigate :=
  (appNavigate string_toLowerCase literal_stringify literal_parse).

Example room_uri_navigation :
  run_optional offline_env example_uris (Some room_uri)
  = Returns
      (run_navigate offline_env
         {| protocol := "https:"; host := "meet.example.com";
            contextRoot := None; room := Some "Standup" |}).
Proof. reflexivity. Qed.

(** The store is full: the document is returned and nothing is written. *)
Lemma cache_write_optional_witness :
  fetches full_store_env example_location = true
  /\ loadConfig full_store_env example_url = Fulfilled fetched_document
  /\ (run_loadConfig full_store_env example_location (world_with ∅)).1
     = Fulfilled (target fetched_document)
  /\ trace (run_loadConfig full_store_env example_location (world_with ∅)).2
     = trace (world_with ∅) ++ [Requested example_url]
  /\ (localStorage (run_loadConfig full_store_env example_location (world_with ∅)).2
      = localStorage (world_with ∅)
      \/ exists storage text,
          localStorage (world_with ∅) = Some storage
          /\ localStorage
               (run_loadConfig full_store_env example_location (world_with ∅)).2
             = Some (<[example_key := text]> storage)).
Proof.
  do 2 (split; [reflexivity|]).
  apply (cache_write_optional string_toLowerCase literal_stringify literal_parse
           full_store_env example_location (world_with ∅) fetched_document);
    reflexivity.
Defined.

(** A user agent that denies the access to [window.localStorage]. *)
Lemma storage_inaccessible_witness :
  (run_loadConfig offline_env example_location
     {| localStorage := None; trace := [] |}).1
  = (if fetches offline_env example_location
     then match loadConfig offline_env example_url with
          | Fulfilled config => Fulfilled (target config)
          | Rejected error => Rejected error
          end
     else Fulfilled VUndefined)
  /\ localStorage
       (run_navigate offline_env example_location
          {| localStorage := None; trace := [] |}).2 = None.
Proof.
  apply (storage_inaccessible string_toLowerCase literal_stringify literal_parse
           offline_env example_location {| localStorage := None; trace := [] |}).
  reflexivity.
Defined.

(** The room [test] is served and cached; the room [standup] is not served
    and gets the document of [test]. *)
Lemma cache_shared_across_rooms_witness :
  loadConfig (sharded_env fetched_document) example_url = Fulfilled fetched_document
  /\ loadConfig (sharded_env fetched_document)
       (url string_toLowerCase other_room_location) = Rejected fetch_error
  /\ (run_loadConfig (sharded_env fetched_document) other_room_location
        (run_loadConfig (sharded_env fetched_document) example_location
           (world_with ∅)).2).1
     = Fulfilled (target fetched_document).
Proof.
  do 2 (split; [reflexivity|]).
  apply (cache_shared_across_rooms string_toLowerCase literal_stringify literal_parse
           (sharded_env fetched_document) eq_refl
           example_location other_room_location (world_with ∅)
           fetched_document ∅ "{}" fetch_error);
    solve [reflexivity | left; reflexivity].
Defined.

(** The room [test] is served [undefined]; the room [standup] is not
    served and discards the entry. *)
Lemma unserializable_entry_discarded_witness :
  literal_stringify (target undefined_document) = Returns None
  /\ literal_parse "undefined" = Throws
  /\ localStorage
       (run_loadConfig (sharded_env undefined_document) example_location
          (world_with ∅)).2
     = Some (<[example_key := "undefined"]> ∅)
  /\ (run_loadConfig (sharded_env undefined_document) other_room_location
        (run_loadConfig (sharded_env undefined_document) example_location
           (world_with ∅)).2).1
     = Rejected fetch_error
  /\ localStorage
       (run_loadConfig (sharded_env undefined_document) other_room_location
          (run_loadConfig (sharded_env undefined_document) example_location
             (world_with ∅)).2).2
     = Some (delete example_key ∅).
Proof.
  do 2 (split; [reflexivity|]).
  apply (unserializable_entry_discarded string_toLowerCase literal_stringify
           literal_parse (sharded_env undefined_document)
           example_location other_room_location (world_with ∅)
           undefined_document ∅ fetch_error);
    solve [reflexivity | left; reflexivity].
Defined.

(** The URL parameters set [displayName] and [startWithAudioMuted]; the
    profile has a [displayName]. *)
Lemma profile_overrides_url_params_witness :
  getProfile url_params_env = VObj {[ "displayName" := VStr "Ann" ]}
  /\ URL_throws url_params_env example_location = None
  /\ exists committed,
      run_navigate url_params_env example_location (world_with ∅)
      = (Fulfilled tt,
         {| localStorage := Some {[ example_key := "{}" ]};
            trace := [Dispatched (configWillLoad example_location);
                      Requested example_url] ++
              [Dispatched (setLocationURL example_location);
               Dispatched (setConfig (VObj committed));
               Dispatched (setRoom (room example_location))] |})
      /\ forall k,
          committed !! k =
            match ({[ "displayName" := VStr "Ann" ]} : gmap string Value) !! k with
            | Some v => Some v
            | None =>
                setConfigFromURLParams url_params_env example_location ∅ !! k
            end.
Proof.
  do 2 (split; [reflexivity|]).
  apply (profile_overrides_url_params string_toLowerCase literal_stringify
           literal_parse url_params_env example_location (world_with ∅) ∅
           {| localStorage := Some {[ example_key := "{}" ]};
              trace := [Dispatched (configWillLoad example_location);
                        Requested example_url] |}
           {[ "displayName" := VStr "Ann" ]});
    vm_compute; reflexivity.
Defined.

(** A URI with a host and a port and without a scheme. *)
Lemma location_with_host_kept_witness :
  uri_host full_uri = Some "conference.example.org:8443"
  /\ run_optional offline_env example_uris (Some full_uri)
     = Returns
         (run_navigate offline_env
            {| protocol := str_or (uri_protocol full_uri) "https:";
               host := "conference.example.org:8443";
               contextRoot := uri_contextRoot full_uri;
               room := uri_room full_uri |}).
Proof.
  split; [reflexivity|].
  apply (location_with_host_kept string_toLowerCase literal_stringify literal_parse
           offline_env example_uris full_uri "conference.example.org:8443");
    [reflexivity | discriminate].
Defined.

(** A room name under the scheme of the mobile app. *)
Lemma default_host_adopted_witness :
  str_truthy (uri_host room_uri) = false
  /\ defaultLocation example_uris = Some default_uri
  /\ run_optional offline_env example_uris (Some room_uri)
     = Returns
         (run_navigate offline_env
            {| protocol := str_or (uri_protocol default_uri) "https:";
               host := template (uri_host default_uri);
               contextRoot := uri_contextRoot room_uri;
               room := uri_room room_uri |}).
Proof.
  do 2 (split; [reflexivity|]).
  apply (default_host_adopted string_toLowerCase literal_stringify literal_parse
           offline_env example_uris room_uri default_uri); reflexivity.
Defined.

Lemma with_default_host_idempotent_witness :
  with_default_host example_uris (Some room_uri)
  = Returns
      {| uri_protocol := Some "https:"; uri_host := Some "meet.example.com";
         uri_hostname := Some "meet.example.com"; uri_port := None;
         uri_contextRoot := None; uri_room := Some "Standup" |}
  /\ with_default_host example_uris
       (Some
          {| uri_protocol := Some "https:"; uri_host := Some "meet.example.com";
             uri_hostname := Some "meet.example.com"; uri_port := None;
             uri_contextRoot := None; uri_room := Some "Standup" |})
     = Returns
         {| uri_protocol := Some "https:"; uri_host := Some "meet.example.com";
            uri_hostname := Some "meet.example.com"; uri_port := None;
            uri_contextRoot := None; uri_room := Some "Standup" |}.
Proof.
  split; [reflexivity|].
  apply (with_default_host_idempotent example_uris (Some room_uri)). reflexivity.
Defined.

Lemma navigated_protocol_set_witness :
  run_optional offline_env example_uris (Some full_uri)
  = Returns (run_navigate offline_env (as_location full_uri))
  /\ exists filled,
      with_default_host example_uris (Some full_uri) = Returns filled
      /\ run_navigate offline_env (as_location full_uri)
         = run_navigate offline_env (as_location filled)
      /\ protocol (as_location filled) <> ""
      /\ (str_truthy (uri_protocol filled) = false ->
          protocol (as_location filled) = "https:").
Proof.
  split; [reflexivity|].
  apply (navigated_protocol_set string_toLowerCase literal_stringify literal_parse
           offline_env example_uris (Some full_uri)). reflexivity.
Defined.

(** The mobile app is opened without a URI. *)
Lemma appNavigate_without_uri_witness :
  parseURIString example_uris None = None
  /\ defaultLocation example_uris = Some default_uri
  /\ absent (uri_room default_uri)
  /\ APP_defined offline_env = false
  /\ URL_throws offline_env (as_location default_uri) = None
  /\ exists navigation,
      run_appNavigate offline_env example_uris None = Returns navigation
      /\ navigation (world_with ∅) =
         (Fulfilled tt,
          {| localStorage := localStorage (world_with ∅);
             trace := trace (world_with ∅) ++
               [Dispatched (configWillLoad (as_location default_uri));
                Dispatched (setLocationURL (as_location default_uri));
                Dispatched (setConfig VUndefined);
                Dispatched (setRoom (uri_room default_uri))] |}).
Proof.
  do 2 (split; [reflexivity|]). split; [now left|]. do 2 (split; [reflexivity|]).
  apply (appNavigate_without_uri string_toLowerCase literal_stringify literal_parse
           offline_env example_uris default_uri (world_with ∅));
    solve [reflexivity | now left].
Defined.

(** A deep link of the mobile app and the [https:] URL of the same room. *)
Lemma app_scheme_fetches_https_witness :
  url string_toLowerCase app_location
  = url string_toLowerCase
      {| protocol := "https:"; host := "meet.example.com";
         contextRoot := None; room := Some "TeamSync" |}
  /\ key string_toLowerCase app_location
     = key string_toLowerCase
         {| protocol := "https:"; host := "meet.example.com";
            contextRoot := None; room := Some "TeamSync" |}.
Proof.
  apply (app_scheme_fetches_https string_toLowerCase app_location
           {| protocol := "https:"; host := "meet.example.com";
              contextRoot := None; room := Some "TeamSync" |});
    solve [reflexivity | vm_compute; discriminate].
Defined.

Lemma url_case_insensitive_witness :
  string_toLowerCase "TeamSync" = string_toLowerCase "teamsync"
  /\ url string_toLowerCase
       {| protocol := "HTTPS:"; host := "meet.example.com";
          contextRoot := None; room := Some "TeamSync" |}
     = url string_toLowerCase
         {| protocol := "https:"; host := "meet.example.com";
            contextRoot := None; room := Some "teamsync" |}.
Proof.
  split; [reflexivity|].
  apply (url_case_insensitive string_toLowerCase
           {| protocol := "HTTPS:"; host := "meet.example.com";
              contextRoot := None; room := Some "TeamSync" |}
           {| protocol := "https:"; host := "meet.example.com";
              contextRoot := None; room := Some "teamsync" |}
           "TeamSync" "teamsync");
    solve [reflexivity | discriminate].
Defined.

(** The WelcomePage of the Web app. *)
Lemma web_app_fetches_without_room_witness :
  APP_defined web_env = true
  /\ absent (room welcome_location)
  /\ trace (run_loadConfig web_env welcome_location (world_with ∅)).2
     = trace (world_with ∅)
       ++ [Requested (baseURL string_toLowerCase welcome_location +:+ "config.js")].
Proof.
  split; [reflexivity|]. split; [now left|].
  apply (web_app_fetches_without_room string_toLowerCase literal_stringify
           literal_parse web_env welcome_location (world_with ∅));
    [reflexivity | now left].
Defined.
